(** * wasip1: socket addresses and connection metadata

    A shallow embedding of [wasip1/net_wasip1.go]: the classification of
    [net.Addr] values into address families and socket types, their
    encoding as [sockaddr] values, the decoders back to [net.Addr], the
    connection overlay built by [makeConn], and the resolver hook.

    Conventions.
    - A Go slice is an [option (list _)]: [None] is the nil slice.
    - A Go interface value is an [option] of its dynamic value: [None] is
      the nil interface.  Pointers held in interfaces are non-nil.
    - A call that can panic returns an [outcome].
    - Calls that reach the connection or the kernel run in the monad [M],
      which records each such call in a trace. *)

From Stdlib Require Import String List ZArith Bool Lia PeanoNat.
From Stdlib.Strings Require Import Byte.
Import ListNotations.

Local Open Scope list_scope.
Local Open Scope bool_scope.

(** ** Go values *)

Definition slice (A : Type) : Type := option (list A).

Definition len {A : Type} (s : slice A) : nat :=
  match s with
  | None => 0
  | Some l => length l
  end.

(** The result of code that may panic at run time. *)
Inductive outcome (A : Type) : Type :=
| Return (a : A)
| Panic.
Arguments Return {A} a.
Arguments Panic {A}.

Definition obind {A B : Type} (o : outcome A) (k : A -> outcome B) : outcome B :=
  match o with
  | Return a => k a
  | Panic => Panic
  end.

(** Conversion of a slice to an array of [n] elements, [([n]T)(s)]: the
    first [n] elements, and a run-time panic when the slice is shorter. *)
Definition toArray {A : Type} (n : nat) (s : slice A) : outcome (list A) :=
  if len s <? n then Panic
  else Return (firstn n (match s with Some l => l | None => [] end)).

(** ** Package net: IP addresses *)

Definition IP : Type := slice byte.

Definition IPv4len : nat := 4.
Definition IPv6len : nat := 16.

Definition isZeros (p : list byte) : bool := forallb (Byte.eqb x00) p.

(** [net.IP.To4]: the 4-byte form of an address, or nil when it has none. *)
Definition To4 (ip : IP) : IP :=
  match ip with
  | None => None
  | Some l =>
      if length l =? IPv4len then Some l
      else if (length l =? IPv6len)
              && isZeros (firstn 10 l)
              && Byte.eqb (nth 10 l x00) xff
              && Byte.eqb (nth 11 l x00) xff
      then Some (firstn 4 (skipn 12 l))
      else None
  end.

(** The twelve bytes that precede an IPv4 address stored in 16 bytes. *)
Definition v4InV6Prefix : list byte :=
  [x00; x00; x00; x00; x00; x00; x00; x00; x00; x00; xff; xff].

(** ** Package net: addresses *)

Record UnixAddr : Type := { unix_Name : string; unix_Net : string }.
Record TCPAddr : Type := { tcp_IP : IP; tcp_Port : Z; tcp_Zone : string }.
Record UDPAddr : Type := { udp_IP : IP; udp_Port : Z; udp_Zone : string }.
Record IPAddr : Type := { ip_IP : IP; ip_Zone : string }.

(** [netAddr] of the source. *)
Record netAddr : Type := { network : string; address : string }.

Definition netAddr_Network (na : netAddr) : string := address na.
Definition netAddr_String (na : netAddr) : string := address na.

(** The dynamic value of a non-nil [net.Addr]. *)
Inductive Addr : Type :=
| Addr_Unix (a : UnixAddr)
| Addr_TCP (a : TCPAddr)
| Addr_UDP (a : UDPAddr)
| Addr_IP (a : IPAddr)
| Addr_netAddr (na : netAddr).

Inductive error : Type :=
| Errno (code : Z)
| AddrError (Err : string) (Addr : string)
| errorString (s : string).

(** The raw socket addresses.  [addr] is an array, of 4 and of 16 bytes. *)
Inductive sockaddr : Type :=
| sockaddrInet4 (addr : list byte) (port : Z)
| sockaddrInet6 (addr : list byte) (port : Z)
| sockaddrUnix (name : string).

(** What the file takes from its surroundings: the constants of the
    socket layer, the text form of the standard library's IP addresses, and
    the two name queries on a descriptor. *)
Class Platform : Type := {
  AF_UNIX : Z;
  AF_INET : Z;
  AF_INET6 : Z;
  SOCK_STREAM : Z;
  SOCK_DGRAM : Z;
  EPROTOTYPE : Z;
  TCPAddr_String : TCPAddr -> string;
  UDPAddr_String : UDPAddr -> string;
  IPAddr_String : IPAddr -> string;
  getsockname_result : Z -> option sockaddr * option error;
  getpeername_result : Z -> option sockaddr * option error
}.

Definition Addr_Network (addr : Addr) : string :=
  match addr with
  | Addr_Unix a => unix_Net a
  | Addr_TCP _ => "tcp"
  | Addr_UDP _ => "udp"
  | Addr_IP _ => "ip"
  | Addr_netAddr na => netAddr_Network na
  end.

Definition Addr_String `{Platform} (addr : Addr) : string :=
  match addr with
  | Addr_Unix a => unix_Name a
  | Addr_TCP a => TCPAddr_String a
  | Addr_UDP a => UDPAddr_String a
  | Addr_IP a => IPAddr_String a
  | Addr_netAddr na => netAddr_String na
  end.

(** ** Classification and encoding *)

Definition isNil {A : Type} (s : option A) : bool :=
  match s with
  | None => true
  | Some _ => false
  end.

Definition family `{Platform} (addr : Addr) : Z :=
  match addr with
  | Addr_Unix _ => AF_UNIX
  | _ =>
      let ip : IP :=
        match addr with
        | Addr_TCP a => tcp_IP a
        | Addr_UDP a => udp_IP a
        | Addr_IP a => ip_IP a
        | _ => None
        end in
      if negb (isNil (To4 ip)) then AF_INET
      else if len ip =? IPv6len then AF_INET6
      else AF_INET
  end.

Definition socketType `{Platform} (addr : Addr) : Z * option error :=
  let n := Addr_Network addr in
  if (n =? "tcp")%string || (n =? "unix")%string then (SOCK_STREAM, None)
  else if (n =? "udp")%string || (n =? "unixgram")%string then (SOCK_DGRAM, None)
  else ((-1)%Z, Some (Errno EPROTOTYPE)).

Definition socketAddress `{Platform} (addr : Addr)
  : outcome (option sockaddr * option error) :=
  match addr with
  | Addr_Unix a => Return (Some (sockaddrUnix (unix_Name a)), None)
  | _ =>
      let '(ip, port) :=
        match addr with
        | Addr_TCP a => (tcp_IP a, tcp_Port a)
        | Addr_UDP a => (udp_IP a, udp_Port a)
        | Addr_IP a => (ip_IP a, 0%Z)
        | _ => (None, 0%Z)
        end in
      let ipv4 := To4 ip in
      if negb (isNil ipv4) then
        obind (toArray 4 ipv4) (fun a =>
        Return (Some (sockaddrInet4 a port), None))
      else if len ip =? IPv6len then
        obind (toArray 16 ip) (fun a =>
        Return (Some (sockaddrInet6 a port), None))
      else
        Return (None, Some (AddrError "unsupported address type" (Addr_String addr)))
  end.

(** ** Decoding *)

Definition sockaddrToUnixAddr (addr : option sockaddr) : option Addr :=
  match addr with
  | Some (sockaddrUnix name) =>
      Some (Addr_Unix {| unix_Name := name; unix_Net := "unix" |})
  | _ => None
  end.

Definition sockaddrIPAndPort (addr : option sockaddr) : IP * Z :=
  match addr with
  | Some (sockaddrInet4 a port) => (Some a, port)
  | Some (sockaddrInet6 a port) => (Some a, port)
  | _ => (None, 0%Z)
  end.

Definition sockaddrToTCPAddr (addr : option sockaddr) : option Addr :=
  let '(ip, port) := sockaddrIPAndPort addr in
  Some (Addr_TCP {| tcp_IP := ip; tcp_Port := port; tcp_Zone := "" |}).

Definition sockaddrToUDPAddr (addr : option sockaddr) : option Addr :=
  let '(ip, port) := sockaddrIPAndPort addr in
  Some (Addr_UDP {| udp_IP := ip; udp_Port := port; udp_Zone := "" |}).

(** ** Calls on the connection and on the kernel *)

Inductive event : Type :=
| Call_SyscallConn
| Call_Control
| Call_getsockname (fd : Z)
| Call_getpeername (fd : Z)
| Call_Close.

(** A computation that appends the calls it makes to a trace. *)
Definition M (A : Type) : Type := list event -> A * list event.

Definition ret {A : Type} (a : A) : M A := fun t => (a, t).

Definition bind {A B : Type} (m : M A) (k : A -> M B) : M B :=
  fun t => let (a, t') := m t in k a t'.

Definition call {A : Type} (e : event) (r : A) : M A :=
  fun t => (r, t ++ [e]).

Notation "x <- m ;; k" := (bind m (fun x => k))
  (at level 61, m at next level, right associativity).
Notation "' pat <- m ;; k" := (bind m (fun x => match x with pat => k end))
  (at level 61, pat pattern, m at next level, right associativity).

(** The dynamic type of a connection; [OtherConn raw] is any type other
    than the three the file names, and [raw] tells whether it implements
    [syscall.Conn]. *)
Inductive ConnType : Type :=
| UnixConn
| UDPConn
| TCPConn
| OtherConn (raw : bool).

Definition implementsSyscallConn (k : ConnType) : bool :=
  match k with
  | OtherConn raw => raw
  | _ => true
  end.

(** A [syscall.RawConn]: the descriptor its [Control] hands to the
    callback, when it runs the callback at all, and what [Control] returns. *)
Record RawConn : Type := {
  Control_fd : option Z;
  Control_result : option error
}.

(** A [net.Conn], with the results of the calls the file makes on it. *)
Record Conn : Type := {
  conn_type : ConnType;
  SyscallConn_result : RawConn * option error;
  Close_result : option error
}.

Definition SyscallConn (c : Conn) : M (RawConn * option error) :=
  call Call_SyscallConn (SyscallConn_result c).

Definition Close (c : Conn) : M (option error) :=
  call Call_Close (Close_result c).

Definition Control {S : Type} (rc : RawConn) (f : Z -> S -> M S) (s : S)
  : M (option error * S) :=
  _ <- call Call_Control tt ;;
  s' <- match Control_fd rc with
        | Some fd => f fd s
        | None => ret s
        end ;;
  ret (Control_result rc, s').

Definition getsockname `{Platform} (fd : Z) : M (option sockaddr * option error) :=
  call (Call_getsockname fd) (getsockname_result fd).

Definition getpeername `{Platform} (fd : Z) : M (option sockaddr * option error) :=
  call (Call_getpeername fd) (getpeername_result fd).

(** ** The overlay *)

Record conn : Type := {
  conn_Conn : Conn;
  laddr : option Addr;
  raddr : option Addr
}.

Definition LocalAddr (c : conn) : option Addr := laddr c.
Definition RemoteAddr (c : conn) : option Addr := raddr c.

(** The dynamic value of a non-nil [net.Conn] that [makeConn] returns. *)
Inductive netConn : Type :=
| Plain (c : Conn)
| Overlay (c : conn).

(** [makeConn].  The callback given to [Control] assigns the variables
    [err], [laddr] and [raddr] of the enclosing function: it takes and
    returns the three. *)
Definition makeConn `{Platform} (c : Conn) : M (option netConn * option error) :=
  if negb (implementsSyscallConn (conn_type c)) then ret (Some (Plain c), None)
  else
    '(rawConn, err) <- SyscallConn c ;;
    if negb (isNil err) then
      _ <- Close c ;;
      ret (None, err)
    else
      '(rawConnErr, (err, laddr, raddr)) <-
        Control rawConn
          (fun fd '(err, laddr, raddr) =>
             '(addr, err) <- getsockname fd ;;
             if negb (isNil err) then ret (err, laddr, raddr)
             else
               '(peer, err) <- getpeername fd ;;
               if negb (isNil err) then ret (err, laddr, raddr)
               else
                 match conn_type c with
                 | UnixConn =>
                     ret (err, sockaddrToUnixAddr addr, sockaddrToUnixAddr peer)
                 | UDPConn =>
                     ret (err, sockaddrToUDPAddr addr, sockaddrToUDPAddr peer)
                 | TCPConn =>
                     ret (err, sockaddrToTCPAddr addr, sockaddrToTCPAddr peer)
                 | OtherConn _ => ret (err, laddr, raddr)
                 end)
          (err, None, None) ;;
      let err := if isNil err then rawConnErr else err in
      if negb (isNil err) then
        _ <- Close c ;;
        ret (None, err)
      else
        ret (Some (Overlay {| conn_Conn := c; laddr := laddr; raddr := raddr |}),
             None).

(** ** The resolver hook *)

Definition dialResolverNotSupported {Ctx : Type} (ctx : Ctx)
  (network address : string) : M (option netConn * option error) :=
  ret (None, Some (errorString "net.Resolver not supported on GOOS=wasip1")).

(** ** The vocabulary of the specification *)

(** Decoding a raw address for a connection of the expected kind: the
    dispatch that the callback of [makeConn] applies to both addresses. *)
Definition decode (expected : ConnType) (sa : option sockaddr) : option Addr :=
  match expected with
  | UnixConn => sockaddrToUnixAddr sa
  | UDPConn => sockaddrToUDPAddr sa
  | TCPConn => sockaddrToTCPAddr sa
  | OtherConn _ => None
  end.

(** The endpoints that carry an IP address. *)
Inductive ipKind : Type :=
| streamIP
| datagramIP
| bareIP.

Definition ipEndpoint (k : ipKind) (ip : IP) (port : Z) (zone : string) : Addr :=
  match k with
  | streamIP => Addr_TCP {| tcp_IP := ip; tcp_Port := port; tcp_Zone := zone |}
  | datagramIP => Addr_UDP {| udp_IP := ip; udp_Port := port; udp_Zone := zone |}
  | bareIP => Addr_IP {| ip_IP := ip; ip_Zone := zone |}
  end.

(** A bare IP endpoint has no port; it encodes with port 0. *)
Definition endpointPort (k : ipKind) (port : Z) : Z :=
  match k with
  | bareIP => 0%Z
  | _ => port
  end.

(** [b4] is the 4-byte form of [ip]: [ip] is stored as these 4 bytes, or as
    the 16 bytes of the IPv4-mapped address that ends in them. *)
Definition fourByteForm (ip : IP) (b4 : list byte) : Prop :=
  length b4 = 4 /\ (ip = Some b4 \/ ip = Some (v4InV6Prefix ++ b4)).

Definition representable4 (ip : IP) : Prop := exists b4, fourByteForm ip b4.

(** The connection kind that carries an endpoint. *)
Definition matchingKind (e : Addr) : ConnType :=
  match e with
  | Addr_Unix _ => UnixConn
  | Addr_TCP _ => TCPConn
  | Addr_UDP _ => UDPConn
  | _ => OtherConn true
  end.

(** Encoding an endpoint and decoding the result for the matching kind. *)
Definition roundtrip `{Platform} (e : Addr) : outcome (option Addr) :=
  obind (socketAddress e) (fun '(sa, err) =>
  Return (if isNil err then decode (matchingKind e) sa else None)).

Definition isClose (e : event) : bool :=
  match e with
  | Call_Close => true
  | _ => false
  end.

(** How many times a trace closes the connection. *)
Definition closes (t : list event) : nat := length (filter isClose t).

(** ** Sample values *)

Definition ip_192_0_2_1 : list byte := [xc0; x00; x02; x01].

Definition ip_2001_db8__1 : list byte :=
  [x20; x01; x0d; xb8; x00; x00; x00; x00; x00; x00; x00; x00; x00; x00; x00; x01].

(** A platform on which descriptor 3 is a connected socket, descriptor 4
    is not a socket, and descriptor 5 lost its peer. *)
Definition samplePlatform : Platform := {|
  AF_UNIX := 3;
  AF_INET := 1;
  AF_INET6 := 2;
  SOCK_STREAM := 2;
  SOCK_DGRAM := 1;
  EPROTOTYPE := 67;
  TCPAddr_String := fun _ => "tcp-address"%string;
  UDPAddr_String := fun _ => "udp-address"%string;
  IPAddr_String := fun _ => "ip-address"%string;
  getsockname_result := fun fd =>
    if (fd =? 4)%Z then (None, Some (Errno 8))
    else (Some (sockaddrInet4 ip_192_0_2_1 8080), None);
  getpeername_result := fun fd =>
    if (fd =? 5)%Z then (None, Some (Errno 53))
    else (Some (sockaddrInet4 ip_192_0_2_1 80), None)
|}.

Definition sampleConn (k : ConnType) (fd : Z) : Conn := {|
  conn_type := k;
  SyscallConn_result := ({| Control_fd := Some fd; Control_result := None |}, None);
  Close_result := None
|}.

(** A connection whose [SyscallConn] fails with [e]. *)
Definition brokenConn (k : ConnType) (e : error) : Conn := {|
  conn_type := k;
  SyscallConn_result := ({| Control_fd := None; Control_result := None |}, Some e);
  Close_result := None
|}.

(** A connection whose [Control] runs the callback on [fd] and then
    returns [r]. *)
Definition sampleConnControl (k : ConnType) (fd : Z) (r : option error) : Conn := {|
  conn_type := k;
  SyscallConn_result := ({| Control_fd := Some fd; Control_result := r |}, None);
  Close_result := None
|}.

(** ** Errors of operations *)

(** The fields of a [net.OpError] that [newOpError] sets. *)
Record OpError : Type := {
  op_Op : string;
  op_Net : string;
  op_Addr : Addr;
  op_Err : option error
}.

(** [newOpError].  The address is an interface value that may be nil, on
    which the call of [Network] panics. *)
Definition newOpError (op : string) (addr : option Addr) (err : option error)
  : outcome OpError :=
  match addr with
  | None => Panic
  | Some a =>
      Return {| op_Op := op; op_Net := Addr_Network a; op_Addr := a; op_Err := err |}
  end.

(** ** Initialisation *)

(** A dial function, as the resolver and the HTTP transport hold one. *)
Definition DialFunc (Ctx : Type) : Type :=
  Ctx -> string -> string -> M (option netConn * option error).

(** An [http.Transport]: its [DialContext] and the rest of its fields. *)
Record Transport (Ctx Rest : Type) : Type := {
  DialContext_hook : option (DialFunc Ctx);
  transport_rest : Rest
}.
Arguments DialContext_hook {Ctx Rest} _.
Arguments transport_rest {Ctx Rest} _.

(** The dynamic value of [http.DefaultTransport]. *)
Inductive RoundTripper (Ctx Rest : Type) : Type :=
| HTTPTransport (t : Transport Ctx Rest)
| OtherRoundTripper.
Arguments HTTPTransport {Ctx Rest} t.
Arguments OtherRoundTripper {Ctx Rest}.

(** The package variables that [init] assigns. *)
Record Globals (Ctx Rest : Type) : Type := {
  DefaultResolver_Dial : option (DialFunc Ctx);
  DefaultTransport : RoundTripper Ctx Rest
}.
Arguments DefaultResolver_Dial {Ctx Rest} _.
Arguments DefaultTransport {Ctx Rest} _.

(** [init], given the package's [DialContext]. *)
Definition init {Ctx Rest : Type} (DialContext : DialFunc Ctx)
  (g : Globals Ctx Rest) : Globals Ctx Rest :=
  {| DefaultResolver_Dial := Some dialResolverNotSupported;
     DefaultTransport :=
       match DefaultTransport g with
       | HTTPTransport t =>
           HTTPTransport {| DialContext_hook := Some DialContext;
                            transport_rest := transport_rest t |}
       | OtherRoundTripper => OtherRoundTripper
       end |}.

(** ** Well-formed socket addresses *)

(** The address arrays have the length of their type. *)
Definition sockaddr_wf (sa : sockaddr) : Prop :=
  match sa with
  | sockaddrInet4 a _ => length a = 4
  | sockaddrInet6 a _ => length a = 16
  | sockaddrUnix _ => True
  end.

(** Decoding a socket address with decoder [d] and encoding the result.
    A decoder that returns the nil interface leaves [socketAddress] to
    call [String] on it, which panics. *)
Definition reencode `{Platform} (d : option sockaddr -> option Addr) (sa : sockaddr)
  : outcome (option sockaddr * option error) :=
  match d (Some sa) with
  | Some e => socketAddress e
  | None => Panic
  end.

(** ** Properties of [To4] *)

Lemma To4_stored4 (b4 : list byte) :
  length b4 = 4 -> To4 (Some b4) = Some b4.
Proof.
  intros H. unfold To4. rewrite H. reflexivity.
Qed.

Lemma To4_mapped (b4 : list byte) :
  length b4 = 4 -> To4 (Some (v4InV6Prefix ++ b4)) = Some b4.
Proof.
  intros H.
  destruct b4 as [|a [|b [|c [|d [|e r]]]]]; try discriminate H.
  reflexivity.
Qed.

Lemma To4_fourByteForm (ip : IP) (b4 : list byte) :
  fourByteForm ip b4 -> To4 ip = Some b4.
Proof.
  intros [Hlen [-> | ->]]; auto using To4_stored4, To4_mapped.
Qed.

Lemma isZeros_cons (b : byte) (p : list byte) :
  isZeros (b :: p) = true -> b = x00 /\ isZeros p = true.
Proof.
  unfold isZeros. cbn [forallb]. intros H.
  apply andb_true_iff in H as [Hb Hp].
  split; [symmetry; now apply byte_dec_bl | exact Hp].
Qed.

Lemma To4_inv (ip : IP) (b4 : list byte) :
  To4 ip = Some b4 -> fourByteForm ip b4.
Proof.
  destruct ip as [l|]; [|discriminate].
  unfold To4, fourByteForm.
  destruct (length l =? IPv4len) eqn:E4.
  - intros [= <-]. apply Nat.eqb_eq in E4. auto.
  - destruct (length l =? IPv6len) eqn:E16; [|discriminate].
    apply Nat.eqb_eq in E16.
    do 16 (destruct l as [|? l]; [discriminate E16|]).
    destruct l; [|discriminate E16].
    cbn [andb firstn nth skipn].
    destruct (isZeros _) eqn:Ez; [|discriminate].
    repeat (apply isZeros_cons in Ez as [-> Ez]).
    cbn [andb].
    match goal with |- context [Byte.eqb ?x xff && _] =>
      destruct (Byte.eqb x xff) eqn:Ea; [apply byte_dec_bl in Ea; subst|discriminate] end.
    cbn [andb].
    match goal with |- context [if Byte.eqb ?x xff then _ else _] =>
      destruct (Byte.eqb x xff) eqn:Eb; [apply byte_dec_bl in Eb; subst|discriminate] end.
    intros [= <-]. split; [reflexivity | right; reflexivity].
Qed.

Lemma To4_not_representable (ip : IP) :
  ~ representable4 ip -> To4 ip = None.
Proof.
  intros Hn. destruct (To4 ip) as [b4|] eqn:E; [|reflexivity].
  exfalso. apply Hn. exists b4. now apply To4_inv.
Qed.

Lemma toArray_exact {A : Type} (n : nat) (l : list A) :
  length l = n -> toArray n (Some l) = Return l.
Proof.
  intros <-. unfold toArray. cbn [len].
  rewrite Nat.ltb_irrefl, firstn_all. reflexivity.
Qed.

(** ** Decoding against another family *)

(** C1, as stated, fails: a unix socket address decoded for a stream-IP
    connection is not the nil [net.Addr]; it is a [TCPAddr] without an
    IP. *)
Lemma sockaddrToTCPAddr_unix_not_nil :
  sockaddrToTCPAddr (Some (sockaddrUnix "/tmp/sock")) <> None.
Proof.
  discriminate.
Qed.

(** C1, amended: a unix socket address decoded for a stream-IP or a
    datagram-IP connection gives a non-nil [TCPAddr] or [UDPAddr] whose IP
    is nil and whose port is 0; an Inet4 or Inet6 socket address decoded
    for a unix connection gives the nil [net.Addr].  The decoders are
    total: none of them has an error result or panics. *)
Theorem decode_other_family (name : string) (a : list byte) (port : Z) :
  sockaddrToTCPAddr (Some (sockaddrUnix name))
    = Some (Addr_TCP {| tcp_IP := None; tcp_Port := 0; tcp_Zone := "" |})
  /\ sockaddrToUDPAddr (Some (sockaddrUnix name))
    = Some (Addr_UDP {| udp_IP := None; udp_Port := 0; udp_Zone := "" |})
  /\ sockaddrToUnixAddr (Some (sockaddrInet4 a port)) = None
  /\ sockaddrToUnixAddr (Some (sockaddrInet6 a port)) = None
  /\ decode TCPConn (Some (sockaddrUnix name)) <> None
  /\ decode UDPConn (Some (sockaddrUnix name)) <> None
  /\ decode UnixConn (Some (sockaddrInet4 a port)) = None
  /\ decode UnixConn (Some (sockaddrInet6 a port)) = None.
Proof.
  repeat split; discriminate.
Qed.

(** ** Classification *)

(** C5: an IP endpoint whose address has a 4-byte form, stored in 4 bytes
    or as the 16 bytes of an IPv4-mapped address, is of family AF_INET; so
    is an endpoint that carries no address. *)
Theorem family_four_byte_form `{Platform}
  (k : ipKind) (ip : IP) (port : Z) (zone : string) :
  representable4 ip \/ len ip = 0 ->
  family (ipEndpoint k ip port zone) = AF_INET.
Proof.
  intros [[b4 Hb4] | Hlen].
  - apply To4_fourByteForm in Hb4.
    destruct k; cbn; rewrite Hb4; reflexivity.
  - assert (E : To4 ip = None).
    { destruct ip as [[|b l]|]; [reflexivity | discriminate Hlen | reflexivity]. }
    destruct k; cbn; rewrite E, Hlen; reflexivity.
Qed.

Lemma family_four_byte_form_sample :
  (representable4 (Some (v4InV6Prefix ++ ip_192_0_2_1))
   \/ len (Some (v4InV6Prefix ++ ip_192_0_2_1)) = 0)
  /\ @family samplePlatform
       (ipEndpoint streamIP (Some (v4InV6Prefix ++ ip_192_0_2_1)) 80 "") = 1%Z.
Proof.
  assert (Hr : representable4 (Some (v4InV6Prefix ++ ip_192_0_2_1))).
  { exists ip_192_0_2_1. split; [reflexivity | right; reflexivity]. }
  split.
  - left. exact Hr.
  - apply (@family_four_byte_form samplePlatform streamIP
             (Some (v4InV6Prefix ++ ip_192_0_2_1)) 80%Z ""%string).
    left. exact Hr.
Defined.

(** The IPv6 unspecified address, sixteen zero bytes, has no 4-byte form
    and is of family AF_INET6. *)
Lemma family_ipv6_zero `{Platform} (k : ipKind) (port : Z) (zone : string) :
  family (ipEndpoint k (Some (repeat x00 16)) port zone) = AF_INET6.
Proof.
  destruct k; reflexivity.
Qed.

(** C7: the socket type is found by exact match on the network name of
    the address: "tcp" and "unix" give SOCK_STREAM, "udp" and "unixgram"
    give SOCK_DGRAM, and every other name gives -1 with the error
    EPROTOTYPE. *)
Theorem socketType_exact_match `{Platform} (addr : Addr) :
  (Addr_Network addr = "tcp"%string \/ Addr_Network addr = "unix"%string ->
     socketType addr = (SOCK_STREAM, None))
  /\ (Addr_Network addr = "udp"%string \/ Addr_Network addr = "unixgram"%string ->
     socketType addr = (SOCK_DGRAM, None))
  /\ (Addr_Network addr <> "tcp"%string -> Addr_Network addr <> "unix"%string ->
      Addr_Network addr <> "udp"%string -> Addr_Network addr <> "unixgram"%string ->
     socketType addr = ((-1)%Z, Some (Errno EPROTOTYPE))).
Proof.
  unfold socketType.
  split; [|split].
  - intros [-> | ->]; reflexivity.
  - intros [-> | ->]; reflexivity.
  - intros H1 H2 H3 H4.
    apply String.eqb_neq in H1, H2, H3, H4.
    rewrite H1, H2, H3, H4. reflexivity.
Qed.

Lemma socketType_exact_match_sample :
  @socketType samplePlatform
     (Addr_Unix {| unix_Name := "/tmp/sock"; unix_Net := "unixgram" |}) = (1%Z, None)
  /\ @socketType samplePlatform
       (Addr_Unix {| unix_Name := "/tmp/sock"; unix_Net := "unixpacket" |})
     = ((-1)%Z, Some (Errno 67))
  /\ @socketType samplePlatform
       (Addr_TCP {| tcp_IP := Some ip_192_0_2_1; tcp_Port := 80; tcp_Zone := "" |})
     = (2%Z, None).
Proof.
  split; [|split].
  - apply (@socketType_exact_match samplePlatform
             (Addr_Unix {| unix_Name := "/tmp/sock"; unix_Net := "unixgram" |})).
    right. reflexivity.
  - apply (@socketType_exact_match samplePlatform
             (Addr_Unix {| unix_Name := "/tmp/sock"; unix_Net := "unixpacket" |}));
      discriminate.
  - apply (@socketType_exact_match samplePlatform
             (Addr_TCP {| tcp_IP := Some ip_192_0_2_1; tcp_Port := 80; tcp_Zone := "" |})).
    left. reflexivity.
Defined.

(** C9: [Network] of a [netAddr] returns the stored address, as [String]
    does, and no accessor depends on the stored network. *)
Theorem netAddr_accessors (na : netAddr) :
  netAddr_Network na = address na
  /\ netAddr_Network na = netAddr_String na
  /\ (forall n : string,
        netAddr_Network {| network := n; address := address na |} = netAddr_Network na
        /\ netAddr_String {| network := n; address := address na |} = netAddr_String na).
Proof.
  repeat split.
Qed.

(** ** Encoding *)

Lemma socketAddress_ipEndpoint `{Platform}
  (k : ipKind) (ip : IP) (port : Z) (zone : string) :
  socketAddress (ipEndpoint k ip port zone)
  = if negb (isNil (To4 ip)) then
      obind (toArray 4 (To4 ip)) (fun a =>
      Return (Some (sockaddrInet4 a (endpointPort k port)), None))
    else if len ip =? IPv6len then
      obind (toArray 16 ip) (fun a =>
      Return (Some (sockaddrInet6 a (endpointPort k port)), None))
    else
      Return (None, Some (AddrError "unsupported address type"
                            (Addr_String (ipEndpoint k ip port zone)))).
Proof.
  destruct k; reflexivity.
Qed.

Lemma socketAddress_inet4 `{Platform}
  (k : ipKind) (ip : IP) (port : Z) (zone : string) (b4 : list byte) :
  fourByteForm ip b4 ->
  socketAddress (ipEndpoint k ip port zone)
  = Return (Some (sockaddrInet4 b4 (endpointPort k port)), None).
Proof.
  intros Hb4. rewrite socketAddress_ipEndpoint.
  rewrite (To4_fourByteForm _ _ Hb4). cbn [isNil negb].
  rewrite toArray_exact by apply Hb4. reflexivity.
Qed.

Lemma socketAddress_inet6 `{Platform}
  (k : ipKind) (l : list byte) (port : Z) (zone : string) :
  ~ representable4 (Some l) -> length l = 16 ->
  socketAddress (ipEndpoint k (Some l) port zone)
  = Return (Some (sockaddrInet6 l (endpointPort k port)), None).
Proof.
  intros Hn Hlen. rewrite socketAddress_ipEndpoint.
  rewrite (To4_not_representable _ Hn). cbn [isNil negb len].
  rewrite Hlen. cbn [Nat.eqb IPv6len].
  rewrite toArray_exact by exact Hlen. reflexivity.
Qed.

Lemma socketAddress_unsupported `{Platform}
  (k : ipKind) (ip : IP) (port : Z) (zone : string) :
  ~ representable4 ip -> len ip <> 16 ->
  socketAddress (ipEndpoint k ip port zone)
  = Return (None, Some (AddrError "unsupported address type"
                          (Addr_String (ipEndpoint k ip port zone)))).
Proof.
  intros Hn Hlen. rewrite socketAddress_ipEndpoint.
  rewrite (To4_not_representable _ Hn). cbn [isNil negb].
  apply Nat.eqb_neq in Hlen. unfold IPv6len. rewrite Hlen. reflexivity.
Qed.

(** C6: a unix endpoint encodes as the unix socket address of its name; an
    IP endpoint whose address has a 4-byte form encodes as Inet4 with
    that form and the port; otherwise an IP endpoint whose address is
    stored in exactly 16 bytes encodes as Inet6 with these bytes and the
    port; every other address, such as a missing or an empty one, gives no
    socket address and the error "unsupported address type". *)
Theorem socketAddress_cases `{Platform} :
  (forall a : UnixAddr,
     socketAddress (Addr_Unix a) = Return (Some (sockaddrUnix (unix_Name a)), None))
  /\ (forall k ip port zone b4,
        fourByteForm ip b4 ->
        socketAddress (ipEndpoint k ip port zone)
        = Return (Some (sockaddrInet4 b4 (endpointPort k port)), None))
  /\ (forall k l port zone,
        ~ representable4 (Some l) -> length l = 16 ->
        socketAddress (ipEndpoint k (Some l) port zone)
        = Return (Some (sockaddrInet6 l (endpointPort k port)), None))
  /\ (forall k ip port zone,
        ~ representable4 ip -> len ip <> 16 ->
        socketAddress (ipEndpoint k ip port zone)
        = Return (None, Some (AddrError "unsupported address type"
                                (Addr_String (ipEndpoint k ip port zone)))))
  /\ (forall na : netAddr,
        socketAddress (Addr_netAddr na)
        = Return (None, Some (AddrError "unsupported address type" (address na)))).
Proof.
  split; [|split; [|split; [|split]]].
  - reflexivity.
  - intros. now apply socketAddress_inet4.
  - intros. now apply socketAddress_inet6.
  - intros. now apply socketAddress_unsupported.
  - reflexivity.
Qed.

Lemma ip_2001_db8__1_not_representable :
  ~ representable4 (Some ip_2001_db8__1).
Proof.
  intros [b4 Hb4]. apply To4_fourByteForm in Hb4. discriminate Hb4.
Qed.

Lemma nil_not_representable : ~ representable4 None.
Proof.
  intros [b4 [_ [E | E]]]; discriminate E.
Qed.

Lemma socketAddress_cases_sample :
  @socketAddress samplePlatform
     (Addr_Unix {| unix_Name := "/tmp/sock"; unix_Net := "unix" |})
  = Return (Some (sockaddrUnix "/tmp/sock"), None)
  /\ @socketAddress samplePlatform (ipEndpoint streamIP (Some ip_192_0_2_1) 80 "")
     = Return (Some (sockaddrInet4 ip_192_0_2_1 80), None)
  /\ @socketAddress samplePlatform (ipEndpoint datagramIP (Some ip_2001_db8__1) 443 "")
     = Return (Some (sockaddrInet6 ip_2001_db8__1 443), None)
  /\ @socketAddress samplePlatform (ipEndpoint streamIP None 80 "")
     = Return (None, Some (AddrError "unsupported address type" "tcp-address")).
Proof.
  destruct (@socketAddress_cases samplePlatform) as (Hu & H4 & H6 & Herr & _).
  split; [|split; [|split]].
  - apply Hu.
  - apply (H4 streamIP (Some ip_192_0_2_1) 80%Z ""%string ip_192_0_2_1).
    split; [reflexivity | left; reflexivity].
  - apply (H6 datagramIP ip_2001_db8__1 443%Z ""%string).
    + exact ip_2001_db8__1_not_representable.
    + reflexivity.
  - apply (Herr streamIP None 80%Z ""%string).
    + exact nil_not_representable.
    + discriminate.
Defined.

(** X3: [socketAddress] never panics, and returns either a socket
    address with no error or no socket address with an error; the address
    of an Inet4 result has 4 bytes and that of an Inet6 result 16. *)
Lemma socketAddress_well_formed `{Platform} (addr : Addr) :
  exists sa err, socketAddress addr = Return (sa, err)
  /\ match sa with
     | Some (sockaddrInet4 a _) => length a = 4 /\ err = None
     | Some (sockaddrInet6 a _) => length a = 16 /\ err = None
     | Some (sockaddrUnix _) => err = None
     | None => err <> None
     end.
Proof.
  assert (Hip : forall k ip port zone,
    exists sa err, socketAddress (ipEndpoint k ip port zone) = Return (sa, err)
    /\ match sa with
       | Some (sockaddrInet4 a _) => length a = 4 /\ err = None
       | Some (sockaddrInet6 a _) => length a = 16 /\ err = None
       | Some (sockaddrUnix _) => err = None
       | None => err <> None
       end).
  { intros k ip port zone.
    destruct (To4 ip) as [b4|] eqn:E4.
    - apply To4_inv in E4.
      rewrite (socketAddress_inet4 _ _ _ _ _ E4).
      do 2 eexists. split; [reflexivity|]. split; [apply E4 | reflexivity].
    - assert (Hn : ~ representable4 ip).
      { intros [b4 Hb4]. apply To4_fourByteForm in Hb4. congruence. }
      destruct (Nat.eq_dec (len ip) 16) as [Hl | Hl].
      + destruct ip as [l|]; [|discriminate Hl].
        rewrite (socketAddress_inet6 _ _ _ _ Hn Hl).
        do 2 eexists. split; [reflexivity|]. split; [exact Hl | reflexivity].
      + rewrite (socketAddress_unsupported _ _ _ _ Hn Hl).
        do 2 eexists. split; [reflexivity|]. discriminate. }
  destruct addr as [a | [ip port zone] | [ip port zone] | [ip zone] | na].
  - do 2 eexists. split; reflexivity.
  - apply (Hip streamIP ip port zone).
  - apply (Hip datagramIP ip port zone).
  - apply (Hip bareIP ip 0%Z zone).
  - do 2 eexists. split; [reflexivity | discriminate].
Qed.

(** ** Round trip *)

(** C2, as stated, fails: 192.0.2.1 stored as the 16 bytes of an
    IPv4-mapped address, the form in which the standard library builds
    IPv4 addresses, comes back from the round trip stored in 4 bytes. *)
Lemma roundtrip_mapped_ipv4_changes :
  @roundtrip samplePlatform
     (Addr_TCP {| tcp_IP := Some (v4InV6Prefix ++ ip_192_0_2_1);
                  tcp_Port := 80; tcp_Zone := "" |})
  <> Return (Some (Addr_TCP {| tcp_IP := Some (v4InV6Prefix ++ ip_192_0_2_1);
                              tcp_Port := 80; tcp_Zone := "" |})).
Proof.
  cbv. discriminate.
Qed.

(** The zone of an IPv6 endpoint and the network of a unix endpoint are
    not encoded either. *)
Lemma roundtrip_drops_zone_and_net :
  @roundtrip samplePlatform
     (Addr_TCP {| tcp_IP := Some ip_2001_db8__1; tcp_Port := 443; tcp_Zone := "eth0" |})
  = Return (Some (Addr_TCP {| tcp_IP := Some ip_2001_db8__1;
                             tcp_Port := 443; tcp_Zone := "" |}))
  /\ @roundtrip samplePlatform
       (Addr_Unix {| unix_Name := "/tmp/sock"; unix_Net := "unixgram" |})
     = Return (Some (Addr_Unix {| unix_Name := "/tmp/sock"; unix_Net := "unix" |})).
Proof.
  split; reflexivity.
Qed.

Lemma roundtrip_inet4 `{Platform} (ip : IP) (port : Z) (zone : string) (b4 : list byte) :
  fourByteForm ip b4 ->
  roundtrip (Addr_TCP {| tcp_IP := ip; tcp_Port := port; tcp_Zone := zone |})
  = Return (Some (Addr_TCP {| tcp_IP := Some b4; tcp_Port := port; tcp_Zone := "" |}))
  /\ roundtrip (Addr_UDP {| udp_IP := ip; udp_Port := port; udp_Zone := zone |})
     = Return (Some (Addr_UDP {| udp_IP := Some b4; udp_Port := port; udp_Zone := "" |})).
Proof.
  intros Hb4. unfold roundtrip. split.
  - rewrite (socketAddress_inet4 streamIP ip port zone b4 Hb4). reflexivity.
  - rewrite (socketAddress_inet4 datagramIP ip port zone b4 Hb4). reflexivity.
Qed.

Lemma roundtrip_inet6 `{Platform} (l : list byte) (port : Z) (zone : string) :
  ~ representable4 (Some l) -> length l = 16 ->
  roundtrip (Addr_TCP {| tcp_IP := Some l; tcp_Port := port; tcp_Zone := zone |})
  = Return (Some (Addr_TCP {| tcp_IP := Some l; tcp_Port := port; tcp_Zone := "" |}))
  /\ roundtrip (Addr_UDP {| udp_IP := Some l; udp_Port := port; udp_Zone := zone |})
     = Return (Some (Addr_UDP {| udp_IP := Some l; udp_Port := port; udp_Zone := "" |})).
Proof.
  intros Hn Hlen. unfold roundtrip. split.
  - rewrite (socketAddress_inet6 streamIP l port zone Hn Hlen). reflexivity.
  - rewrite (socketAddress_inet6 datagramIP l port zone Hn Hlen). reflexivity.
Qed.

(** C2, amended: a stream or datagram IP endpoint without a zone whose
    address is stored in 4 bytes, or in 16 bytes that are not an
    IPv4-mapped address, comes back unchanged from encoding and decoding
    for the matching kind, and so does a unix endpoint of network "unix";
    an endpoint whose address is stored as the 16 bytes of an IPv4-mapped
    address comes back with the same port and the address in its 4-byte
    form. *)
Theorem roundtrip_stored_form `{Platform} :
  (forall (l : list byte) (port : Z),
     length l = 4 \/ (length l = 16 /\ ~ representable4 (Some l)) ->
     roundtrip (Addr_TCP {| tcp_IP := Some l; tcp_Port := port; tcp_Zone := "" |})
     = Return (Some (Addr_TCP {| tcp_IP := Some l; tcp_Port := port; tcp_Zone := "" |}))
     /\ roundtrip (Addr_UDP {| udp_IP := Some l; udp_Port := port; udp_Zone := "" |})
        = Return (Some (Addr_UDP {| udp_IP := Some l; udp_Port := port; udp_Zone := "" |})))
  /\ (forall (b4 : list byte) (port : Z),
        length b4 = 4 ->
        roundtrip (Addr_TCP {| tcp_IP := Some (v4InV6Prefix ++ b4);
                               tcp_Port := port; tcp_Zone := "" |})
        = Return (Some (Addr_TCP {| tcp_IP := Some b4; tcp_Port := port; tcp_Zone := "" |}))
        /\ roundtrip (Addr_UDP {| udp_IP := Some (v4InV6Prefix ++ b4);
                                  udp_Port := port; udp_Zone := "" |})
           = Return (Some (Addr_UDP {| udp_IP := Some b4; udp_Port := port; udp_Zone := "" |})))
  /\ (forall name : string,
        roundtrip (Addr_Unix {| unix_Name := name; unix_Net := "unix" |})
        = Return (Some (Addr_Unix {| unix_Name := name; unix_Net := "unix" |}))).
Proof.
  split; [|split].
  - intros l port [H4 | [H16 Hn]].
    + apply roundtrip_inet4. split; [exact H4 | left; reflexivity].
    + now apply roundtrip_inet6.
  - intros b4 port H4.
    apply roundtrip_inet4. split; [exact H4 | right; reflexivity].
  - reflexivity.
Qed.

Lemma roundtrip_stored_form_sample :
  @roundtrip samplePlatform
     (Addr_TCP {| tcp_IP := Some ip_192_0_2_1; tcp_Port := 80; tcp_Zone := "" |})
  = Return (Some (Addr_TCP {| tcp_IP := Some ip_192_0_2_1; tcp_Port := 80; tcp_Zone := "" |}))
  /\ @roundtrip samplePlatform
       (Addr_UDP {| udp_IP := Some ip_2001_db8__1; udp_Port := 53; udp_Zone := "" |})
     = Return (Some (Addr_UDP {| udp_IP := Some ip_2001_db8__1;
                                udp_Port := 53; udp_Zone := "" |}))
  /\ @roundtrip samplePlatform
       (Addr_TCP {| tcp_IP := Some (v4InV6Prefix ++ ip_192_0_2_1);
                    tcp_Port := 80; tcp_Zone := "" |})
     = Return (Some (Addr_TCP {| tcp_IP := Some ip_192_0_2_1;
                                tcp_Port := 80; tcp_Zone := "" |})).
Proof.
  destruct (@roundtrip_stored_form samplePlatform) as (Hsame & Hmapped & _).
  split; [|split].
  - apply (Hsame ip_192_0_2_1 80%Z). left. reflexivity.
  - apply (Hsame ip_2001_db8__1 53%Z). right.
    split; [reflexivity | exact ip_2001_db8__1_not_representable].
  - apply (Hmapped ip_192_0_2_1 80%Z). reflexivity.
Defined.

(** ** The overlay *)

Lemma closes_app (t u : list event) : closes (t ++ u) = closes t + closes u.
Proof.
  unfold closes. rewrite filter_app, length_app. reflexivity.
Qed.

Ltac run_makeConn :=
  unfold makeConn, Control, SyscallConn, Close, getsockname, getpeername,
    bind, call, ret.

Ltac flatten_trace := repeat rewrite <- app_assoc; cbn [app].

(** The run of [makeConn] when the local-name query fails: the peer-name
    query is not made. *)
Lemma makeConn_getsockname_fails `{Platform}
  (c : Conn) (rc : RawConn) (fd : Z) (e : error) (t : list event) :
  implementsSyscallConn (conn_type c) = true ->
  SyscallConn_result c = (rc, None) ->
  Control_fd rc = Some fd ->
  snd (getsockname_result fd) = Some e ->
  makeConn c t
  = ((None, Some e),
     t ++ [Call_SyscallConn; Call_Control; Call_getsockname fd; Call_Close]).
Proof.
  intros Hraw Hsc Hfd Hname. run_makeConn.
  rewrite Hraw, Hsc. cbn [negb isNil]. rewrite Hfd.
  destruct (getsockname_result fd) as [addr err]. cbn [snd] in Hname. subst err.
  cbn [negb isNil]. flatten_trace. reflexivity.
Qed.

(** The run of [makeConn] when the peer-name query fails after the
    local-name query succeeded. *)
Lemma makeConn_getpeername_fails `{Platform}
  (c : Conn) (rc : RawConn) (fd : Z) (e : error) (t : list event) :
  implementsSyscallConn (conn_type c) = true ->
  SyscallConn_result c = (rc, None) ->
  Control_fd rc = Some fd ->
  snd (getsockname_result fd) = None ->
  snd (getpeername_result fd) = Some e ->
  makeConn c t
  = ((None, Some e),
     t ++ [Call_SyscallConn; Call_Control; Call_getsockname fd;
           Call_getpeername fd; Call_Close]).
Proof.
  intros Hraw Hsc Hfd Hname Hpeer. run_makeConn.
  rewrite Hraw, Hsc. cbn [negb isNil]. rewrite Hfd.
  destruct (getsockname_result fd) as [addr err]. cbn [snd] in Hname. subst err.
  cbn [negb isNil].
  destruct (getpeername_result fd) as [peer err]. cbn [snd] in Hpeer. subst err.
  cbn [negb isNil]. flatten_trace. reflexivity.
Qed.

(** C3: when the local-name query fails, or the peer-name query fails
    after the local-name query succeeded, [makeConn] returns no connection
    and the error of the failed query, and has closed the underlying
    connection exactly once. *)
Theorem makeConn_query_failure `{Platform}
  (c : Conn) (rc : RawConn) (fd : Z) (e : error) (t : list event) :
  implementsSyscallConn (conn_type c) = true ->
  SyscallConn_result c = (rc, None) ->
  Control_fd rc = Some fd ->
  snd (getsockname_result fd) = Some e
  \/ (snd (getsockname_result fd) = None /\ snd (getpeername_result fd) = Some e) ->
  fst (makeConn c t) = (None, Some e)
  /\ closes (snd (makeConn c t)) = S (closes t).
Proof.
  intros Hraw Hsc Hfd [Hname | [Hname Hpeer]].
  - rewrite (makeConn_getsockname_fails c rc fd e t) by assumption.
    cbn [fst snd]. rewrite closes_app. cbn. split; [reflexivity | lia].
  - rewrite (makeConn_getpeername_fails c rc fd e t) by assumption.
    cbn [fst snd]. rewrite closes_app. cbn. split; [reflexivity | lia].
Qed.

Lemma makeConn_query_failure_sample :
  fst (@makeConn samplePlatform (sampleConn TCPConn 5) []) = (None, Some (Errno 53))
  /\ closes (snd (@makeConn samplePlatform (sampleConn TCPConn 5) [])) = 1.
Proof.
  apply (@makeConn_query_failure samplePlatform (sampleConn TCPConn 5)
           {| Control_fd := Some 5%Z; Control_result := None |} 5%Z (Errno 53) []).
  - reflexivity.
  - reflexivity.
  - reflexivity.
  - right. split; reflexivity.
Defined.

(** C8: a connection that does not implement [syscall.Conn] is returned
    as it is, with no error, and no call is made on it. *)
Theorem makeConn_not_raw `{Platform} (c : Conn) (t : list event) :
  implementsSyscallConn (conn_type c) = false ->
  makeConn c t = ((Some (Plain c), None), t).
Proof.
  intros Hraw. unfold makeConn. rewrite Hraw. reflexivity.
Qed.

Lemma makeConn_not_raw_sample :
  @makeConn samplePlatform (sampleConn (OtherConn false) 3) []
  = ((Some (Plain (sampleConn (OtherConn false) 3)), None), []).
Proof.
  apply (@makeConn_not_raw samplePlatform (sampleConn (OtherConn false) 3) []).
  reflexivity.
Defined.

(** C10, as stated, fails: a connection of another type that implements
    [syscall.Conn], on which both name queries succeed, but whose
    [Control] returns an error after it ran the callback, gets no overlay;
    [makeConn] returns that error and closes the connection. *)
Lemma makeConn_other_type_Control_error :
  implementsSyscallConn
    (conn_type (sampleConnControl (OtherConn true) 3 (Some (Errno 9)))) = true
  /\ snd (@getsockname_result samplePlatform 3) = None
  /\ snd (@getpeername_result samplePlatform 3) = None
  /\ @makeConn samplePlatform (sampleConnControl (OtherConn true) 3 (Some (Errno 9))) []
     = ((None, Some (Errno 9)),
        [Call_SyscallConn; Call_Control; Call_getsockname 3;
         Call_getpeername 3; Call_Close])
  /\ ~ (exists o : conn,
          fst (@makeConn samplePlatform
                 (sampleConnControl (OtherConn true) 3 (Some (Errno 9))) [])
          = (Some (Overlay o), None)).
Proof.
  repeat split.
  intros [o Ho]. discriminate Ho.
Qed.

(** C10, amended: for a connection that implements [syscall.Conn] and is
    none of [UnixConn], [UDPConn] and [TCPConn], when [SyscallConn] and
    [Control] report no error and both name queries succeed, [makeConn]
    returns an overlay of the connection whose local and remote addresses
    are nil, with no error, and does not close the connection. *)
Theorem makeConn_other_type `{Platform}
  (c : Conn) (rc : RawConn) (fd : Z) (t : list event) :
  conn_type c = OtherConn true ->
  SyscallConn_result c = (rc, None) ->
  Control_fd rc = Some fd ->
  Control_result rc = None ->
  snd (getsockname_result fd) = None ->
  snd (getpeername_result fd) = None ->
  exists o : conn,
    fst (makeConn c t) = (Some (Overlay o), None)
    /\ conn_Conn o = c
    /\ LocalAddr o = None
    /\ RemoteAddr o = None
    /\ closes (snd (makeConn c t)) = closes t.
Proof.
  intros Hty Hsc Hfd Hctl Hname Hpeer.
  exists {| conn_Conn := c; laddr := None; raddr := None |}.
  run_makeConn. rewrite Hty, Hsc. cbn [implementsSyscallConn negb isNil].
  rewrite Hfd, Hctl.
  destruct (getsockname_result fd) as [addr err]. cbn [snd] in Hname. subst err.
  cbn [negb isNil].
  destruct (getpeername_result fd) as [peer err]. cbn [snd] in Hpeer. subst err.
  cbn [negb isNil fst snd LocalAddr RemoteAddr conn_Conn laddr raddr].
  repeat split. flatten_trace. rewrite closes_app. cbn. lia.
Qed.

Lemma makeConn_other_type_sample :
  exists o : conn,
    fst (@makeConn samplePlatform (sampleConn (OtherConn true) 3) [])
    = (Some (Overlay o), None)
    /\ conn_Conn o = sampleConn (OtherConn true) 3
    /\ LocalAddr o = None
    /\ RemoteAddr o = None
    /\ closes (snd (@makeConn samplePlatform (sampleConn (OtherConn true) 3) []))
       = closes [].
Proof.
  apply (@makeConn_other_type samplePlatform (sampleConn (OtherConn true) 3)
           {| Control_fd := Some 3%Z; Control_result := None |} 3%Z []);
    reflexivity.
Defined.

(** For the three kinds the file names, the overlay holds the two
    addresses decoded for the kind of the connection. *)
Lemma makeConn_decodes `{Platform}
  (c : Conn) (rc : RawConn) (fd : Z) (addr peer : option sockaddr) (t : list event) :
  conn_type c <> OtherConn true -> conn_type c <> OtherConn false ->
  SyscallConn_result c = (rc, None) ->
  Control_fd rc = Some fd ->
  Control_result rc = None ->
  getsockname_result fd = (addr, None) ->
  getpeername_result fd = (peer, None) ->
  fst (makeConn c t)
  = (Some (Overlay {| conn_Conn := c;
                      laddr := decode (conn_type c) addr;
                      raddr := decode (conn_type c) peer |}), None).
Proof.
  intros Hn1 Hn2 Hsc Hfd Hctl Hname Hpeer.
  run_makeConn. rewrite Hsc.
  destruct (conn_type c) as [ | | | [|]] eqn:Hty; try congruence;
    cbn [implementsSyscallConn negb isNil]; rewrite Hfd, Hctl, Hname;
    cbn [negb isNil]; rewrite Hpeer; reflexivity.
Qed.

(** X11: in every run, [makeConn] closes the connection exactly once
    when it returns an error, then with no connection, and does not close
    it when it returns a connection. *)
Lemma makeConn_closes_on_error `{Platform} (c : Conn) (t : list event) :
  (snd (fst (makeConn c t)) <> None
   /\ fst (fst (makeConn c t)) = None
   /\ closes (snd (makeConn c t)) = S (closes t))
  \/ (snd (fst (makeConn c t)) = None
      /\ fst (fst (makeConn c t)) <> None
      /\ closes (snd (makeConn c t)) = closes t).
Proof.
  run_makeConn.
  destruct c as [k [[cfd cres] serr] cl].
  cbn [conn_type SyscallConn_result Close_result Control_fd Control_result].
  destruct (implementsSyscallConn k); cbn [negb].
  2: { right. cbn. repeat split. discriminate. }
  destruct serr as [e|]; cbn [negb isNil].
  { left. cbn -[closes]. flatten_trace. rewrite closes_app. cbn.
    repeat split; [discriminate | lia]. }
  destruct cfd as [fd|];
    [destruct (getsockname_result fd) as [addr [e1|]]; cbn [negb isNil];
     [|destruct (getpeername_result fd) as [peer [e2|]]; cbn [negb isNil];
       [|destruct k]]|];
    destruct cres as [e3|];
    cbn -[closes]; flatten_trace; rewrite closes_app; cbn;
    first [ left; repeat split; [discriminate | lia]
          | right; repeat split; [discriminate | lia] ].
Qed.

(** ** The resolver hook *)

(** C4: whatever the context, the network and the address, the hook
    returns no connection and the error that names the unsupported
    resolver, and makes no call. *)
Theorem dialResolverNotSupported_fails
  (Ctx : Type) (ctx : Ctx) (network address : string) (t : list event) :
  dialResolverNotSupported ctx network address t
  = ((None, Some (errorString "net.Resolver not supported on GOOS=wasip1")), t).
Proof.
  reflexivity.
Qed.

(** ** Further properties of the classification *)

Lemma Addr_cases (addr : Addr) :
  (exists a, addr = Addr_Unix a)
  \/ (exists k ip port zone, addr = ipEndpoint k ip port zone)
  \/ (exists na, addr = Addr_netAddr na).
Proof.
  destruct addr as [a | [ip port zone] | [ip port zone] | [ip zone] | na].
  - left. now exists a.
  - right; left. now exists streamIP, ip, port, zone.
  - right; left. now exists datagramIP, ip, port, zone.
  - right; left. now exists bareIP, ip, 0%Z, zone.
  - right; right. now exists na.
Qed.

Lemma family_ipEndpoint `{Platform} (k : ipKind) (ip : IP) (port : Z) (zone : string) :
  family (ipEndpoint k ip port zone)
  = if negb (isNil (To4 ip)) then AF_INET
    else if len ip =? IPv6len then AF_INET6
    else AF_INET.
Proof.
  destruct k; reflexivity.
Qed.

Lemma family_inet4 `{Platform} (k : ipKind) (ip : IP) (port : Z) (zone : string) :
  representable4 ip -> family (ipEndpoint k ip port zone) = AF_INET.
Proof.
  intros [b4 Hb4]. rewrite family_ipEndpoint.
  rewrite (To4_fourByteForm _ _ Hb4). reflexivity.
Qed.

Lemma family_inet6 `{Platform} (k : ipKind) (l : list byte) (port : Z) (zone : string) :
  ~ representable4 (Some l) -> length l = 16 ->
  family (ipEndpoint k (Some l) port zone) = AF_INET6.
Proof.
  intros Hn Hlen. rewrite family_ipEndpoint.
  rewrite (To4_not_representable _ Hn). cbn [isNil negb len].
  rewrite Hlen. reflexivity.
Qed.

Lemma family_fallthrough `{Platform} (k : ipKind) (ip : IP) (port : Z) (zone : string) :
  ~ representable4 ip -> len ip <> 16 ->
  family (ipEndpoint k ip port zone) = AF_INET.
Proof.
  intros Hn Hlen. rewrite family_ipEndpoint.
  rewrite (To4_not_representable _ Hn). cbn [isNil negb].
  apply Nat.eqb_neq in Hlen. unfold IPv6len. rewrite Hlen. reflexivity.
Qed.

(** X1: a unix address is of family AF_UNIX; an IP endpoint whose address
    is stored in 16 bytes and has no 4-byte form is of family AF_INET6; an
    IP endpoint whose address has no 4-byte form and is not stored in 16
    bytes, and a [netAddr], fall through to AF_INET. *)
Theorem family_other_cases `{Platform} :
  (forall a : UnixAddr, family (Addr_Unix a) = AF_UNIX)
  /\ (forall k l port zone,
        ~ representable4 (Some l) -> length l = 16 ->
        family (ipEndpoint k (Some l) port zone) = AF_INET6)
  /\ (forall k ip port zone,
        ~ representable4 ip -> len ip <> 16 ->
        family (ipEndpoint k ip port zone) = AF_INET)
  /\ (forall na : netAddr, family (Addr_netAddr na) = AF_INET).
Proof.
  split; [|split; [|split]].
  - reflexivity.
  - intros. now apply family_inet6.
  - intros. now apply family_fallthrough.
  - reflexivity.
Qed.

Lemma five_bytes_not_representable :
  ~ representable4 (Some [x01; x02; x03; x04; x05]).
Proof.
  intros [b4 Hb4]. apply To4_fourByteForm in Hb4. discriminate Hb4.
Qed.

Lemma family_other_cases_sample :
  @family samplePlatform (ipEndpoint datagramIP (Some ip_2001_db8__1) 53 "") = 2%Z
  /\ @family samplePlatform
       (ipEndpoint streamIP (Some [x01; x02; x03; x04; x05]) 80 "") = 1%Z.
Proof.
  destruct (@family_other_cases samplePlatform) as (_ & H6 & Hother & _).
  split.
  - apply (H6 datagramIP ip_2001_db8__1 53%Z ""%string).
    + exact ip_2001_db8__1_not_representable.
    + reflexivity.
  - apply (Hother streamIP (Some [x01; x02; x03; x04; x05]) 80%Z ""%string).
    + exact five_bytes_not_representable.
    + discriminate.
Defined.

(** What an encoded IP endpoint is, by the stored form of its address. *)
Lemma socketAddress_ipEndpoint_inv `{Platform}
  (k : ipKind) (ip : IP) (port : Z) (zone : string) :
  (exists b4, fourByteForm ip b4
     /\ socketAddress (ipEndpoint k ip port zone)
        = Return (Some (sockaddrInet4 b4 (endpointPort k port)), None))
  \/ (exists l, ip = Some l /\ length l = 16 /\ ~ representable4 (Some l)
        /\ socketAddress (ipEndpoint k ip port zone)
           = Return (Some (sockaddrInet6 l (endpointPort k port)), None))
  \/ (~ representable4 ip /\ len ip <> 16
      /\ socketAddress (ipEndpoint k ip port zone)
         = Return (None, Some (AddrError "unsupported address type"
                                 (Addr_String (ipEndpoint k ip port zone))))).
Proof.
  destruct (To4 ip) as [b4|] eqn:E4.
  - left. exists b4. apply To4_inv in E4. split; [exact E4|].
    now apply socketAddress_inet4.
  - assert (Hn : ~ representable4 ip).
    { intros [b4 Hb4]. apply To4_fourByteForm in Hb4. congruence. }
    destruct (Nat.eq_dec (len ip) 16) as [Hl | Hl].
    + right; left. destruct ip as [l|]; [|discriminate Hl].
      exists l. repeat split; try assumption.
      now apply socketAddress_inet6.
    + right; right. repeat split; try assumption.
      now apply socketAddress_unsupported.
Qed.

(** X2: [family] agrees with the variant that [socketAddress] builds:
    AF_INET with Inet4, AF_INET6 with Inet6, AF_UNIX with a unix socket
    address; an address that [socketAddress] rejects is still classified,
    as AF_INET.  [socketAddress] does not panic. *)
Theorem family_matches_socketAddress `{Platform} (addr : Addr) :
  match socketAddress addr with
  | Return (Some (sockaddrInet4 _ _), _) => family addr = AF_INET
  | Return (Some (sockaddrInet6 _ _), _) => family addr = AF_INET6
  | Return (Some (sockaddrUnix _), _) => family addr = AF_UNIX
  | Return (None, _) => family addr = AF_INET
  | Panic => False
  end.
Proof.
  destruct (Addr_cases addr) as [[a ->] | [(k & ip & port & zone & ->) | [na ->]]].
  - reflexivity.
  - destruct (socketAddress_ipEndpoint_inv k ip port zone)
      as [(b4 & Hb4 & ->) | [(l & -> & Hlen & Hn & ->) | (Hn & Hlen & ->)]].
    + apply family_inet4. now exists b4.
    + now apply family_inet6.
    + now apply family_fallthrough.
  - reflexivity.
Qed.

(** ** Decoding and encoding again *)

Lemma reencode_inet4 `{Platform} (a : list byte) (port : Z) :
  length a = 4 ->
  reencode sockaddrToTCPAddr (sockaddrInet4 a port)
  = Return (Some (sockaddrInet4 a port), None)
  /\ reencode sockaddrToUDPAddr (sockaddrInet4 a port)
     = Return (Some (sockaddrInet4 a port), None).
Proof.
  intros Hlen.
  assert (Hb4 : fourByteForm (Some a) a) by (split; [exact Hlen | now left]).
  split.
  - exact (socketAddress_inet4 streamIP (Some a) port "" a Hb4).
  - exact (socketAddress_inet4 datagramIP (Some a) port "" a Hb4).
Qed.

Lemma reencode_inet6 `{Platform} (a : list byte) (port : Z) :
  length a = 16 -> ~ representable4 (Some a) ->
  reencode sockaddrToTCPAddr (sockaddrInet6 a port)
  = Return (Some (sockaddrInet6 a port), None)
  /\ reencode sockaddrToUDPAddr (sockaddrInet6 a port)
     = Return (Some (sockaddrInet6 a port), None).
Proof.
  intros Hlen Hn. split.
  - exact (socketAddress_inet6 streamIP a port "" Hn Hlen).
  - exact (socketAddress_inet6 datagramIP a port "" Hn Hlen).
Qed.

(** X4: decoding a well-formed socket address for the kind of connection
    that carries it and encoding the result gives the socket address
    back: an Inet4 address through the TCP and the UDP decoder, an Inet6
    address whose 16 bytes are not an IPv4-mapped address through the
    same two, a unix address through the unix decoder. *)
Theorem reencode_identity `{Platform} (sa : sockaddr) :
  sockaddr_wf sa ->
  (forall a port, sa = sockaddrInet6 a port -> ~ representable4 (Some a)) ->
  match sa with
  | sockaddrUnix _ =>
      reencode sockaddrToUnixAddr sa = Return (Some sa, None)
  | _ =>
      reencode sockaddrToTCPAddr sa = Return (Some sa, None)
      /\ reencode sockaddrToUDPAddr sa = Return (Some sa, None)
  end.
Proof.
  intros Hwf Hn.
  destruct sa as [a port | a port | name].
  - now apply reencode_inet4.
  - apply reencode_inet6; [exact Hwf | now apply (Hn a port)].
  - reflexivity.
Qed.

Lemma reencode_identity_sample :
  @reencode samplePlatform sockaddrToTCPAddr (sockaddrInet6 ip_2001_db8__1 443)
  = Return (Some (sockaddrInet6 ip_2001_db8__1 443), None)
  /\ @reencode samplePlatform sockaddrToUDPAddr (sockaddrInet6 ip_2001_db8__1 443)
     = Return (Some (sockaddrInet6 ip_2001_db8__1 443), None).
Proof.
  apply (@reencode_identity samplePlatform (sockaddrInet6 ip_2001_db8__1 443)).
  - reflexivity.
  - intros a port [= <- _]. exact ip_2001_db8__1_not_representable.
Defined.

(** X5: an Inet6 socket address whose 16 bytes are an IPv4-mapped
    address does not come back: decoded by the TCP or the UDP decoder and
    encoded again it is the Inet4 socket address of the last four bytes,
    with the same port. *)
Theorem reencode_mapped_inet6 `{Platform} (b4 : list byte) (port : Z) :
  length b4 = 4 ->
  reencode sockaddrToTCPAddr (sockaddrInet6 (v4InV6Prefix ++ b4) port)
  = Return (Some (sockaddrInet4 b4 port), None)
  /\ reencode sockaddrToUDPAddr (sockaddrInet6 (v4InV6Prefix ++ b4) port)
     = Return (Some (sockaddrInet4 b4 port), None).
Proof.
  intros Hlen.
  assert (Hb4 : fourByteForm (Some (v4InV6Prefix ++ b4)) b4)
    by (split; [exact Hlen | now right]).
  split.
  - exact (socketAddress_inet4 streamIP _ port "" b4 Hb4).
  - exact (socketAddress_inet4 datagramIP _ port "" b4 Hb4).
Qed.

Lemma reencode_mapped_inet6_sample :
  @reencode samplePlatform sockaddrToTCPAddr
     (sockaddrInet6 (v4InV6Prefix ++ ip_192_0_2_1) 80)
  = Return (Some (sockaddrInet4 ip_192_0_2_1 80), None)
  /\ @reencode samplePlatform sockaddrToUDPAddr
       (sockaddrInet6 (v4InV6Prefix ++ ip_192_0_2_1) 80)
     = Return (Some (sockaddrInet4 ip_192_0_2_1 80), None).
Proof.
  apply (@reencode_mapped_inet6 samplePlatform ip_192_0_2_1 80%Z).
  reflexivity.
Defined.

(** X6: a socket address that [socketAddress] builds is a fixed point of
    decoding and encoding again, whatever endpoint it was built from. *)
Theorem socketAddress_reencode `{Platform} (e : Addr) (sa : sockaddr) (err : option error) :
  socketAddress e = Return (Some sa, err) ->
  match sa with
  | sockaddrUnix _ =>
      reencode sockaddrToUnixAddr sa = Return (Some sa, None)
  | _ =>
      reencode sockaddrToTCPAddr sa = Return (Some sa, None)
      /\ reencode sockaddrToUDPAddr sa = Return (Some sa, None)
  end.
Proof.
  intros He.
  destruct (Addr_cases e) as [[a ->] | [(k & ip & port & zone & ->) | [na ->]]].
  - injection He as <- _. reflexivity.
  - destruct (socketAddress_ipEndpoint_inv k ip port zone)
      as [(b4 & Hb4 & E) | [(l & -> & Hlen & Hn & E) | (Hn & Hlen & E)]];
      rewrite E in He.
    + injection He as <- _. apply reencode_inet4. apply Hb4.
    + injection He as <- _. now apply reencode_inet6.
    + discriminate He.
  - discriminate He.
Qed.

Lemma socketAddress_reencode_sample :
  @reencode samplePlatform sockaddrToTCPAddr (sockaddrInet4 ip_192_0_2_1 80)
  = Return (Some (sockaddrInet4 ip_192_0_2_1 80), None)
  /\ @reencode samplePlatform sockaddrToUDPAddr (sockaddrInet4 ip_192_0_2_1 80)
     = Return (Some (sockaddrInet4 ip_192_0_2_1 80), None).
Proof.
  apply (@socketAddress_reencode samplePlatform
           (ipEndpoint streamIP (Some (v4InV6Prefix ++ ip_192_0_2_1)) 80 "")
           (sockaddrInet4 ip_192_0_2_1 80) None).
  reflexivity.
Defined.

(** X7: the round trip is idempotent: the endpoint that encoding and
    decoding for the matching kind gives comes back unchanged from a
    second round trip. *)
Theorem roundtrip_idempotent `{Platform} (e e' : Addr) :
  roundtrip e = Return (Some e') -> roundtrip e' = Return (Some e').
Proof.
  intros He.
  destruct e as [a | [ip port zone] | [ip port zone] | [ip zone] | na].
  - injection He as <-. reflexivity.
  - destruct (socketAddress_ipEndpoint_inv streamIP ip port zone)
      as [(b4 & Hb4 & E) | [(l & -> & Hlen & Hn & E) | (Hn & Hlen & E)]];
      unfold roundtrip in He; cbn [ipEndpoint] in E; rewrite E in He;
      cbn in He; try discriminate He; injection He as <-.
    + apply roundtrip_inet4. split; [apply Hb4 | now left].
    + now apply roundtrip_inet6.
  - destruct (socketAddress_ipEndpoint_inv datagramIP ip port zone)
      as [(b4 & Hb4 & E) | [(l & -> & Hlen & Hn & E) | (Hn & Hlen & E)]];
      unfold roundtrip in He; cbn [ipEndpoint] in E; rewrite E in He;
      cbn in He; try discriminate He; injection He as <-.
    + apply roundtrip_inet4. split; [apply Hb4 | now left].
    + now apply roundtrip_inet6.
  - exfalso.
    destruct (socketAddress_ipEndpoint_inv bareIP ip 0%Z zone)
      as [(b4 & Hb4 & E) | [(l & -> & Hlen & Hn & E) | (Hn & Hlen & E)]];
      unfold roundtrip in He; cbn [ipEndpoint] in E; rewrite E in He;
      cbn in He; discriminate He.
  - discriminate He.
Qed.

Lemma roundtrip_idempotent_sample :
  @roundtrip samplePlatform
     (Addr_TCP {| tcp_IP := Some ip_192_0_2_1; tcp_Port := 80; tcp_Zone := "" |})
  = Return (Some (Addr_TCP {| tcp_IP := Some ip_192_0_2_1;
                             tcp_Port := 80; tcp_Zone := "" |})).
Proof.
  apply (@roundtrip_idempotent samplePlatform
           (Addr_TCP {| tcp_IP := Some (v4InV6Prefix ++ ip_192_0_2_1);
                        tcp_Port := 80; tcp_Zone := "eth0" |})).
  reflexivity.
Defined.

(** ** Socket types of particular addresses *)

(** X8: an address that a decoder returns always has a socket type:
    SOCK_STREAM from the TCP decoder, SOCK_DGRAM from the UDP decoder, and
    SOCK_STREAM from the unix decoder, which gives every unix address the
    network "unix", also on a datagram connection. *)
Theorem socketType_decoded `{Platform} (sa : option sockaddr) (e : Addr) :
  (sockaddrToTCPAddr sa = Some e -> socketType e = (SOCK_STREAM, None))
  /\ (sockaddrToUDPAddr sa = Some e -> socketType e = (SOCK_DGRAM, None))
  /\ (sockaddrToUnixAddr sa = Some e ->
      socketType e = (SOCK_STREAM, None) /\ Addr_Network e = "unix"%string).
Proof.
  split; [|split].
  - unfold sockaddrToTCPAddr. destruct (sockaddrIPAndPort sa) as [ip port].
    intros [= <-]. reflexivity.
  - unfold sockaddrToUDPAddr. destruct (sockaddrIPAndPort sa) as [ip port].
    intros [= <-]. reflexivity.
  - destruct sa as [[a port | a port | name]|]; try discriminate.
    intros [= <-]. split; reflexivity.
Qed.

Lemma socketType_decoded_sample :
  @socketType samplePlatform
     (Addr_Unix {| unix_Name := "/tmp/sock"; unix_Net := "unix" |}) = (2%Z, None)
  /\ Addr_Network (Addr_Unix {| unix_Name := "/tmp/sock"; unix_Net := "unix" |})
     = "unix"%string.
Proof.
  apply (@socketType_decoded samplePlatform (Some (sockaddrUnix "/tmp/sock"))
           (Addr_Unix {| unix_Name := "/tmp/sock"; unix_Net := "unix" |})).
  reflexivity.
Defined.

(** X9: a bare IP endpoint has no socket type, EPROTOTYPE, whatever its
    address, although [socketAddress] encodes it, with port 0, when the
    address has a 4-byte form. *)
Theorem socketType_bare_ip `{Platform} (ip : IP) (zone : string) :
  socketType (Addr_IP {| ip_IP := ip; ip_Zone := zone |})
  = ((-1)%Z, Some (Errno EPROTOTYPE))
  /\ (forall b4, fourByteForm ip b4 ->
        socketAddress (Addr_IP {| ip_IP := ip; ip_Zone := zone |})
        = Return (Some (sockaddrInet4 b4 0), None)).
Proof.
  split.
  - reflexivity.
  - intros b4 Hb4. exact (socketAddress_inet4 bareIP ip 0%Z zone b4 Hb4).
Qed.

Lemma socketType_bare_ip_sample :
  @socketType samplePlatform (Addr_IP {| ip_IP := Some ip_192_0_2_1; ip_Zone := "" |})
  = ((-1)%Z, Some (Errno 67))
  /\ @socketAddress samplePlatform
       (Addr_IP {| ip_IP := Some ip_192_0_2_1; ip_Zone := "" |})
     = Return (Some (sockaddrInet4 ip_192_0_2_1 0), None).
Proof.
  destruct (@socketType_bare_ip samplePlatform (Some ip_192_0_2_1) ""%string)
    as [Hty Henc].
  split.
  - exact Hty.
  - apply Henc. split; [reflexivity | left; reflexivity].
Defined.

(** X10: the socket type of a [netAddr] is read from its address string
    and not from its network: a [netAddr] of network "tcp" has no socket
    type unless its address is one of the four network names, the stored
    network never changes the result, and [family] classifies every
    [netAddr] as AF_INET. *)
Theorem socketType_netAddr `{Platform} (net addr : string) :
  (addr <> "tcp"%string -> addr <> "unix"%string ->
   addr <> "udp"%string -> addr <> "unixgram"%string ->
   socketType (Addr_netAddr {| network := "tcp"; address := addr |})
   = ((-1)%Z, Some (Errno EPROTOTYPE)))
  /\ socketType (Addr_netAddr {| network := net; address := addr |})
     = socketType (Addr_netAddr {| network := ""; address := addr |})
  /\ family (Addr_netAddr {| network := net; address := addr |}) = AF_INET.
Proof.
  split; [|split].
  - intros H1 H2 H3 H4. unfold socketType.
    cbn [Addr_Network netAddr_Network address].
    apply String.eqb_neq in H1, H2, H3, H4.
    rewrite H1, H2, H3, H4. reflexivity.
  - reflexivity.
  - reflexivity.
Qed.

Lemma socketType_netAddr_sample :
  @socketType samplePlatform
     (Addr_netAddr {| network := "tcp"; address := "example.com:80" |})
  = ((-1)%Z, Some (Errno 67)).
Proof.
  apply (@socketType_netAddr samplePlatform "tcp"%string "example.com:80"%string);
    discriminate.
Defined.

(** ** Further properties of the overlay *)

(** X12: for a unix, a UDP or a TCP connection on which [SyscallConn],
    [Control] and both name queries succeed, [makeConn] returns, with no
    error, an overlay of that connection whose local address is the
    result of [getsockname] and whose remote address is the result of
    [getpeername], each decoded for the kind of the connection; it asks
    for the local name first, and does not close the connection. *)
Theorem makeConn_named_kinds `{Platform}
  (c : Conn) (rc : RawConn) (fd : Z) (addr peer : option sockaddr) (t : list event) :
  conn_type c = UnixConn \/ conn_type c = UDPConn \/ conn_type c = TCPConn ->
  SyscallConn_result c = (rc, None) ->
  Control_fd rc = Some fd ->
  Control_result rc = None ->
  getsockname_result fd = (addr, None) ->
  getpeername_result fd = (peer, None) ->
  exists o : conn,
    makeConn c t
    = ((Some (Overlay o), None),
       t ++ [Call_SyscallConn; Call_Control; Call_getsockname fd; Call_getpeername fd])
    /\ conn_Conn o = c
    /\ LocalAddr o = decode (conn_type c) addr
    /\ RemoteAddr o = decode (conn_type c) peer.
Proof.
  intros Hty Hsc Hfd Hctl Hname Hpeer.
  exists {| conn_Conn := c;
            laddr := decode (conn_type c) addr;
            raddr := decode (conn_type c) peer |}.
  split; [|repeat split].
  run_makeConn. rewrite Hsc.
  destruct Hty as [Hty | [Hty | Hty]]; rewrite Hty;
    cbn [implementsSyscallConn negb isNil]; rewrite Hfd, Hctl, Hname;
    cbn [negb isNil]; rewrite Hpeer; cbn [negb isNil decode];
    flatten_trace; reflexivity.
Qed.

Lemma makeConn_named_kinds_sample :
  exists o : conn,
    @makeConn samplePlatform (sampleConn TCPConn 3) []
    = ((Some (Overlay o), None),
       [Call_SyscallConn; Call_Control; Call_getsockname 3; Call_getpeername 3])
    /\ conn_Conn o = sampleConn TCPConn 3
    /\ LocalAddr o
       = Some (Addr_TCP {| tcp_IP := Some ip_192_0_2_1; tcp_Port := 8080; tcp_Zone := "" |})
    /\ RemoteAddr o
       = Some (Addr_TCP {| tcp_IP := Some ip_192_0_2_1; tcp_Port := 80; tcp_Zone := "" |}).
Proof.
  apply (@makeConn_named_kinds samplePlatform (sampleConn TCPConn 3)
           {| Control_fd := Some 3%Z; Control_result := None |} 3%Z
           (Some (sockaddrInet4 ip_192_0_2_1 8080))
           (Some (sockaddrInet4 ip_192_0_2_1 80)) []).
  - right; right. reflexivity.
  - reflexivity.
  - reflexivity.
  - reflexivity.
  - reflexivity.
  - reflexivity.
Defined.

(** X13: when [SyscallConn] fails, [makeConn] closes the connection and
    returns no connection and that error, without calling [Control] or
    either name query. *)
Theorem makeConn_SyscallConn_fails `{Platform}
  (c : Conn) (rc : RawConn) (e : error) (t : list event) :
  implementsSyscallConn (conn_type c) = true ->
  SyscallConn_result c = (rc, Some e) ->
  makeConn c t = ((None, Some e), t ++ [Call_SyscallConn; Call_Close]).
Proof.
  intros Hraw Hsc. run_makeConn. rewrite Hraw, Hsc.
  cbn [negb isNil]. flatten_trace. reflexivity.
Qed.

Lemma makeConn_SyscallConn_fails_sample :
  @makeConn samplePlatform (brokenConn TCPConn (Errno 8)) []
  = ((None, Some (Errno 8)), [Call_SyscallConn; Call_Close]).
Proof.
  apply (@makeConn_SyscallConn_fails samplePlatform (brokenConn TCPConn (Errno 8))
           {| Control_fd := None; Control_result := None |} (Errno 8) []);
    reflexivity.
Defined.

(** X14: when both name queries succeed and [Control] itself then returns
    an error, [makeConn] drops the decoded addresses, closes the
    connection once and returns no connection and the error of
    [Control]. *)
Theorem makeConn_Control_fails `{Platform}
  (c : Conn) (rc : RawConn) (fd : Z) (e : error) (t : list event) :
  implementsSyscallConn (conn_type c) = true ->
  SyscallConn_result c = (rc, None) ->
  Control_fd rc = Some fd ->
  Control_result rc = Some e ->
  snd (getsockname_result fd) = None ->
  snd (getpeername_result fd) = None ->
  makeConn c t
  = ((None, Some e),
     t ++ [Call_SyscallConn; Call_Control; Call_getsockname fd;
           Call_getpeername fd; Call_Close]).
Proof.
  intros Hraw Hsc Hfd Hctl Hname Hpeer. run_makeConn.
  rewrite Hraw, Hsc. cbn [negb isNil]. rewrite Hfd, Hctl.
  destruct (getsockname_result fd) as [addr err]. cbn [snd] in Hname. subst err.
  cbn [negb isNil].
  destruct (getpeername_result fd) as [peer err]. cbn [snd] in Hpeer. subst err.
  cbn [negb isNil].
  destruct (conn_type c); cbn [negb isNil]; flatten_trace; reflexivity.
Qed.

Lemma makeConn_Control_fails_sample :
  @makeConn samplePlatform (sampleConnControl UDPConn 3 (Some (Errno 9))) []
  = ((None, Some (Errno 9)),
     [Call_SyscallConn; Call_Control; Call_getsockname 3;
      Call_getpeername 3; Call_Close]).
Proof.
  apply (@makeConn_Control_fails samplePlatform
           (sampleConnControl UDPConn 3 (Some (Errno 9)))
           {| Control_fd := Some 3%Z; Control_result := Some (Errno 9) |}
           3%Z (Errno 9) []);
    reflexivity.
Defined.

(** The calls that one run of [makeConn] can make, in order. *)
Lemma makeConn_traces `{Platform} (c : Conn) (t : list event) :
  exists u, snd (makeConn c t) = t ++ u
  /\ (u = []
      \/ u = [Call_SyscallConn; Call_Close]
      \/ u = [Call_SyscallConn; Call_Control]
      \/ u = [Call_SyscallConn; Call_Control; Call_Close]
      \/ exists fd, Control_fd (fst (SyscallConn_result c)) = Some fd
         /\ (u = [Call_SyscallConn; Call_Control; Call_getsockname fd; Call_Close]
             \/ u = [Call_SyscallConn; Call_Control; Call_getsockname fd;
                     Call_getpeername fd]
             \/ u = [Call_SyscallConn; Call_Control; Call_getsockname fd;
                     Call_getpeername fd; Call_Close])).
Proof.
  run_makeConn.
  destruct c as [k [[cfd cres] serr] cl].
  cbn [conn_type SyscallConn_result Close_result Control_fd Control_result fst].
  destruct (implementsSyscallConn k); cbn [negb].
  2: { exists []. cbn. rewrite app_nil_r. auto. }
  destruct serr as [e|]; cbn [negb isNil].
  { eexists. cbn. flatten_trace. split; [reflexivity|]. auto. }
  destruct cfd as [fd|];
    [destruct (getsockname_result fd) as [addr [e1|]]; cbn [negb isNil];
     [|destruct (getpeername_result fd) as [peer [e2|]]; cbn [negb isNil];
       [|destruct k]]|];
    destruct cres as [e3|];
    cbn; flatten_trace; eexists; (split; [reflexivity|]);
    first [ right; right; right; right; exists fd; split; [reflexivity|]; auto 6
          | auto 6 ].
Qed.

(** X15: in every run, [makeConn] only appends calls to the trace; it
    asks for names only on the descriptor that [Control] hands to the
    callback, asks for the peer name only after the local name, and when
    it closes the connection that is its last call. *)
Theorem makeConn_call_order `{Platform} (c : Conn) (t : list event) :
  exists u, snd (makeConn c t) = t ++ u
  /\ (forall fd, In (Call_getsockname fd) u \/ In (Call_getpeername fd) u ->
        Control_fd (fst (SyscallConn_result c)) = Some fd)
  /\ (forall fd, In (Call_getpeername fd) u ->
        exists u1 u2, u = u1 ++ Call_getsockname fd :: Call_getpeername fd :: u2)
  /\ (In Call_Close u -> exists u1, u = u1 ++ [Call_Close] /\ ~ In Call_Close u1).
Proof.
  destruct (makeConn_traces c t) as (u & Hu & Hshape).
  exists u. split; [exact Hu|].
  destruct Hshape as [-> | [-> | [-> | [-> | (fd & Hfd & [-> | [-> | ->]])]]]].
  - repeat split; cbn; intros; intuition discriminate.
  - repeat split; cbn; try (intros; intuition discriminate).
    intros _. exists [Call_SyscallConn]. split; [reflexivity|].
    cbn. intuition discriminate.
  - repeat split; cbn; intros; intuition discriminate.
  - repeat split; cbn; try (intros; intuition discriminate).
    intros _. exists [Call_SyscallConn; Call_Control]. split; [reflexivity|].
    cbn. intuition discriminate.
  - split; [|split].
    + cbn. intros fd' Hin. intuition (try discriminate); congruence.
    + cbn. intros fd' Hin. intuition discriminate.
    + intros _. exists [Call_SyscallConn; Call_Control; Call_getsockname fd].
      split; [reflexivity|]. cbn. intuition discriminate.
  - split; [|split].
    + cbn. intros fd' Hin. intuition (try discriminate); congruence.
    + cbn. intros fd' Hin.
      assert (fd' = fd) as -> by (intuition (try discriminate); congruence).
      exists [Call_SyscallConn; Call_Control], []. reflexivity.
    + cbn. intuition discriminate.
  - split; [|split].
    + cbn. intros fd' Hin. intuition (try discriminate); congruence.
    + cbn. intros fd' Hin.
      assert (fd' = fd) as -> by (intuition (try discriminate); congruence).
      exists [Call_SyscallConn; Call_Control], [Call_Close]. reflexivity.
    + intros _.
      exists [Call_SyscallConn; Call_Control; Call_getsockname fd; Call_getpeername fd].
      split; [reflexivity|]. cbn. intuition discriminate.
Qed.

(** ** Errors of operations *)

(** X16: the error that [newOpError] builds keeps the operation, the
    address and the cause, and takes its network from the address: the
    name of the kind for an [Addr_TCP], [Addr_UDP] or [Addr_IP], the stored
    network of a unix address, but for a [netAddr] the address string, so
    that the network of the [netAddr] does not reach the error.  On the
    nil address it panics. *)
Theorem newOpError_fields (op : string) (err : option error) :
  newOpError op None err = Panic
  /\ (forall a : Addr,
        exists oe, newOpError op (Some a) err = Return oe
        /\ op_Op oe = op /\ op_Addr oe = a /\ op_Err oe = err
        /\ op_Net oe
           = match a with
             | Addr_Unix u => unix_Net u
             | Addr_TCP _ => "tcp"%string
             | Addr_UDP _ => "udp"%string
             | Addr_IP _ => "ip"%string
             | Addr_netAddr na => address na
             end)
  /\ (forall net addr : string,
        newOpError op (Some (Addr_netAddr {| network := net; address := addr |})) err
        = Return {| op_Op := op; op_Net := addr;
                    op_Addr := Addr_netAddr {| network := net; address := addr |};
                    op_Err := err |}).
Proof.
  split; [reflexivity | split].
  - intros a. eexists. split; [reflexivity|].
    destruct a; repeat split.
  - reflexivity.
Qed.

(** ** Initialisation *)

(** X17: after [init], whatever was installed before, the dial function
    of the default resolver fails on every context, network and address
    with the error that names the unsupported resolver, and makes no
    call; a default transport that is an [http.Transport] dials through
    the package's [DialContext] and keeps its other fields, any other
    default transport is left as it is; running [init] again changes
    nothing. *)
Theorem init_installs_hooks (Ctx Rest : Type) (DialContext : DialFunc Ctx)
  (g : Globals Ctx Rest) :
  (exists f, DefaultResolver_Dial (init DialContext g) = Some f
     /\ forall ctx network address t,
          f ctx network address t
          = ((None, Some (errorString "net.Resolver not supported on GOOS=wasip1")), t))
  /\ (DefaultTransport g = OtherRoundTripper ->
      DefaultTransport (init DialContext g) = OtherRoundTripper)
  /\ (forall tr, DefaultTransport g = HTTPTransport tr ->
        exists tr', DefaultTransport (init DialContext g) = HTTPTransport tr'
        /\ DialContext_hook tr' = Some DialContext
        /\ transport_rest tr' = transport_rest tr)
  /\ init DialContext (init DialContext g) = init DialContext g.
Proof.
  split; [|split; [|split]].
  - eexists. split; reflexivity.
  - unfold init. cbn. intros ->. reflexivity.
  - intros tr Htr. unfold init. cbn. rewrite Htr.
    eexists. repeat split.
  - unfold init. cbn. destruct (DefaultTransport g); reflexivity.
Qed.

Lemma init_installs_hooks_sample :
  DefaultTransport
    (init (Rest := nat) (@dialResolverNotSupported unit)
       {| DefaultResolver_Dial := None; DefaultTransport := OtherRoundTripper |})
  = OtherRoundTripper.
Proof.
  apply (init_installs_hooks unit nat (@dialResolverNotSupported unit)
           {| DefaultResolver_Dial := None; DefaultTransport := OtherRoundTripper |}).
  reflexivity.
Defined.
